(** * gplus: the data-access facade of gorm-plus (gplus/base_dao.go)

    A shallow embedding of [base_dao.go].  The facade is a thin layer over
    gorm: it assembles a statement (WHERE text and arguments, projection,
    ORDER/GROUP/HAVING, OFFSET/LIMIT) on a [*gorm.DB] handle and then calls a
    gorm finisher ([Create], [Delete], [Take], [Find], [Scan], [Count], ...).

    - Go [int] and [int64] are 64-bit two's-complement integers: [Z] with the
      wrap-around written out ([GoInt]).
    - [strings.Builder] is the string written so far ([Builder]).
    - [*Query[T]] and [*Page[T]] are mutated in place by the facade; the
      embedding threads the pointed-to value through every function that
      receives the pointer and returns its new value.
    - gorm itself is external.  Its chain methods are modelled by the
      statement fields they set, and its finishers by an arbitrary
      deterministic [store] that sees the calls made so far; every finisher
      call is appended to the log [calls]. *)

From Stdlib Require Import String Ascii ZArith Bool List Lia.
Import ListNotations.
Open Scope string_scope.
Open Scope list_scope.
Open Scope Z_scope.

#[local] Set Warnings "-register-all".

(** ** Go integers *)

Module GoInt.

Definition min_int : Z := - 2 ^ 63.
Definition max_int : Z := 2 ^ 63 - 1.

Definition in_range (z : Z) : Prop := min_int <= z <= max_int.

(** The value a 64-bit signed register holds for the mathematical [z]. *)
Definition wrap (z : Z) : Z := (z + 2 ^ 63) mod 2 ^ 64 - 2 ^ 63.

Definition sub (a b : Z) : Z := wrap (a - b).
Definition mul (a b : Z) : Z := wrap (a * b).

End GoInt.

(** ** strings.Builder *)

Module Builder.

Definition t := string.

Definition empty : t := "".
Definition Len (b : t) : Z := Z.of_nat (String.length b).
Definition WriteString (b : t) (s : string) : t := String.append b s.
Definition String (b : t) : string := b.

End Builder.

(** Number of positional placeholders [?] of a condition text. *)
Fixpoint placeholders (s : string) : nat :=
  match s with
  | EmptyString => 0%nat
  | String c s' => ((if Ascii.eqb c "?"%char then 1 else 0) + placeholders s')%nat
  end.

(** A builder and its argument list agree: one argument per placeholder. *)
Definition parity {A : Type} (b : Builder.t) (args : list A) : Prop :=
  placeholders (Builder.String b) = List.length args.

(** ** Values bound to placeholders *)

Inductive Value : Type :=
| VInt (z : Z)
| VStr (s : string)
| VBool (b : bool)
| VList (vs : list Value).

(** ** The gorm handle *)

Inductive Err : Type :=
| ErrRecordNotFound
| ErrStore (msg : string).

(** What a chain of gorm calls has put on the statement. *)
Record Statement : Type := {
  Distinct : list string;
  Selects  : list string;
  Where    : list (string * list Value);
  Order    : list string;
  Group    : list string;
  Having   : list (string * list Value);
  Offset   : option Z;
  Limit    : option Z
}.

Definition empty_statement : Statement :=
  {| Distinct := []; Selects := []; Where := []; Order := []; Group := [];
     Having := []; Offset := None; Limit := None |}.

(** [*gorm.DB]: the statement under construction and the outcome fields the
    facade reads. *)
Record DB : Type := {
  Stmt         : Statement;
  Error        : option Err;
  RowsAffected : Z
}.

Definition with_stmt (f : Statement -> Statement) (db : DB) : DB :=
  {| Stmt := f (Stmt db); Error := Error db; RowsAffected := RowsAffected db |}.

(** Chain methods.  On a handle obtained from [gormDb.Model(...)] or
    [gormDb.Where(...)] they change the statement of that same handle, which is
    why the source can ignore their results. *)
Definition db_Distinct (cols : list string) : DB -> DB :=
  with_stmt (fun s =>
    {| Distinct := cols; Selects := Selects s; Where := Where s;
       Order := Order s; Group := Group s; Having := Having s;
       Offset := Offset s; Limit := Limit s |}).

Definition db_Select (cols : list string) : DB -> DB :=
  with_stmt (fun s =>
    {| Distinct := Distinct s; Selects := cols; Where := Where s;
       Order := Order s; Group := Group s; Having := Having s;
       Offset := Offset s; Limit := Limit s |}).

Definition db_Where (cond : string) (args : list Value) : DB -> DB :=
  with_stmt (fun s =>
    {| Distinct := Distinct s; Selects := Selects s;
       Where := Where s ++ [(cond, args)];
       Order := Order s; Group := Group s; Having := Having s;
       Offset := Offset s; Limit := Limit s |}).

Definition db_Order (o : string) : DB -> DB :=
  with_stmt (fun s =>
    {| Distinct := Distinct s; Selects := Selects s; Where := Where s;
       Order := Order s ++ [o]; Group := Group s; Having := Having s;
       Offset := Offset s; Limit := Limit s |}).

Definition db_Group (g : string) : DB -> DB :=
  with_stmt (fun s =>
    {| Distinct := Distinct s; Selects := Selects s; Where := Where s;
       Order := Order s; Group := Group s ++ [g]; Having := Having s;
       Offset := Offset s; Limit := Limit s |}).

Definition db_Having (h : string) (args : list Value) : DB -> DB :=
  with_stmt (fun s =>
    {| Distinct := Distinct s; Selects := Selects s; Where := Where s;
       Order := Order s; Group := Group s; Having := Having s ++ [(h, args)];
       Offset := Offset s; Limit := Limit s |}).

Definition db_Offset (n : Z) : DB -> DB :=
  with_stmt (fun s =>
    {| Distinct := Distinct s; Selects := Selects s; Where := Where s;
       Order := Order s; Group := Group s; Having := Having s;
       Offset := Some n; Limit := Limit s |}).

Definition db_Limit (n : Z) : DB -> DB :=
  with_stmt (fun s =>
    {| Distinct := Distinct s; Selects := Selects s; Where := Where s;
       Order := Order s; Group := Group s; Having := Having s;
       Offset := Offset s; Limit := Some n |}).

(** The condition a statement carries: the texts of its WHERE expressions
    (gorm joins several with AND) and their arguments in order. *)
Fixpoint where_text (ws : list (string * list Value)) : string :=
  match ws with
  | [] => ""
  | [(c, _)] => c
  | (c, _) :: ws' => String.append c (String.append " AND " (where_text ws'))
  end.

Definition where_args (ws : list (string * list Value)) : list Value :=
  concat (map snd ws).

(** ** The query descriptor and the page *)

(** Modelled from the spec: the declaration of [Query[T]] (query.go) is not
    among the sources.  The descriptor "holds the Condition Expression,
    Order/Group/Having fragments, Select/Distinct column lists, and an update
    key-value mapping", with an AND-bracket and an OR-bracket group, each "its
    own fragment sequence + argument list"; the field names are the ones
    base_dao.go reads and writes. *)
Record Query : Type := {
  DistinctColumns   : list string;
  SelectColumns     : list string;
  QueryBuilder      : Builder.t;
  QueryArgs         : list Value;
  AndBracketBuilder : Builder.t;
  AndBracketArgs    : list Value;
  OrBracketBuilder  : Builder.t;
  OrBracketArgs     : list Value;
  OrderBuilder      : Builder.t;
  GroupBuilder      : Builder.t;
  HavingBuilder     : Builder.t;
  HavingArgs        : list Value;
  UpdateMap         : list (string * Value)
}.

(** [q.QueryArgs = args] *)
Definition set_QueryArgs (args : list Value) (q : Query) : Query :=
  {| DistinctColumns := DistinctColumns q; SelectColumns := SelectColumns q;
     QueryBuilder := QueryBuilder q; QueryArgs := args;
     AndBracketBuilder := AndBracketBuilder q; AndBracketArgs := AndBracketArgs q;
     OrBracketBuilder := OrBracketBuilder q; OrBracketArgs := OrBracketArgs q;
     OrderBuilder := OrderBuilder q; GroupBuilder := GroupBuilder q;
     HavingBuilder := HavingBuilder q; HavingArgs := HavingArgs q;
     UpdateMap := UpdateMap q |}.

(** [q.QueryBuilder.WriteString(s)] *)
Definition QueryBuilder_WriteString (s : string) (q : Query) : Query :=
  {| DistinctColumns := DistinctColumns q; SelectColumns := SelectColumns q;
     QueryBuilder := Builder.WriteString (QueryBuilder q) s;
     QueryArgs := QueryArgs q;
     AndBracketBuilder := AndBracketBuilder q; AndBracketArgs := AndBracketArgs q;
     OrBracketBuilder := OrBracketBuilder q; OrBracketArgs := OrBracketArgs q;
     OrderBuilder := OrderBuilder q; GroupBuilder := GroupBuilder q;
     HavingBuilder := HavingBuilder q; HavingArgs := HavingArgs q;
     UpdateMap := UpdateMap q |}.

(** Modelled from the spec: [NewQuery] (query.go) is not among the sources; a
    descriptor is "created fresh per logical query", with nothing accumulated. *)
Definition NewQuery : Query :=
  {| DistinctColumns := []; SelectColumns := [];
     QueryBuilder := Builder.empty; QueryArgs := [];
     AndBracketBuilder := Builder.empty; AndBracketArgs := [];
     OrBracketBuilder := Builder.empty; OrBracketArgs := [];
     OrderBuilder := Builder.empty; GroupBuilder := Builder.empty;
     HavingBuilder := Builder.empty; HavingArgs := [];
     UpdateMap := [] |}.

(** Modelled from the spec: the method [In] (query.go) is not among the
    sources; "in(column, values) adds a set-membership fragment consuming the
    entire value list as one placeholder group". *)
Definition In (column : string) (values : list Value) (q : Query) : Query :=
  set_QueryArgs (QueryArgs q ++ [VList values])
    (QueryBuilder_WriteString (String.append column " IN ?") q).

Record Page (A : Type) : Type := {
  Current : Z;
  Size    : Z;
  Total   : Z;
  Records : list A
}.
Arguments Current {A} _.
Arguments Size {A} _.
Arguments Total {A} _.
Arguments Records {A} _.

Definition NewPage {A : Type} (current size : Z) : Page A :=
  {| Current := current; Size := size; Total := 0; Records := [] |}.

(** [page.Total = total] *)
Definition set_Total {A : Type} (total : Z) (page : Page A) : Page A :=
  {| Current := Current page; Size := Size page; Total := total;
     Records := Records page |}.

(** [page.Records = results] *)
Definition set_Records {A : Type} (results : list A) (page : Page A) : Page A :=
  {| Current := Current page; Size := Size page; Total := Total page;
     Records := results |}.

(** ** Pagination *)

(** The memory [paginate] and the function it returns work on: the Page [p]
    points to, and the two local variables the returned function captures. *)
Record PaginateEnv (A : Type) : Type := {
  p        : Page A;
  page     : Z;
  pageSize : Z
}.
Arguments p {A} _.
Arguments page {A} _.
Arguments pageSize {A} _.

(** [page := p.Current; pageSize := p.Size] *)
Definition paginate {A : Type} (pg : Page A) : PaginateEnv A :=
  {| p := pg; page := Current pg; pageSize := Size pg |}.

(** One call of the function [paginate] returns, on the handle [db]. *)
Definition paginate_func {A : Type} (env : PaginateEnv A) (db : DB)
  : PaginateEnv A * DB :=
  let page := if page env <=? 0 then 1 else page env in
  let pageSize := if pageSize env <=? 0 then 10 else pageSize env in
  let offset := GoInt.mul (GoInt.sub page 1) pageSize in
  ({| p := p env; page := page; pageSize := pageSize |},
   db_Limit pageSize (db_Offset offset db)).

(** The (offset, limit) that pagination puts on a blank statement for a page
    with the given current number and size. *)
Definition calc (current size : Z) : option Z * option Z :=
  let db := snd (paginate_func (paginate (@NewPage unit current size))
                   {| Stmt := empty_statement; Error := None; RowsAffected := 0 |}) in
  (Offset (Stmt db), Limit (Stmt db)).

(** ** The store behind gorm *)

(** A finisher call: the handle it was called on and its operands. *)
Inductive Call (T : Type) : Type :=
| CallCreate (db : DB) (entity : T)
| CallCreateInBatches (db : DB) (entities : list T) (batchSize : Z)
| CallDelete (db : DB)
| CallUpdates (db : DB) (values : T + list (string * Value))
| CallTake (db : DB) (conds : list Value)
| CallFind (db : DB)
| CallScan (db : DB)
| CallCount (db : DB).
Arguments CallCreate {T} _ _.
Arguments CallCreateInBatches {T} _ _ _.
Arguments CallDelete {T} _.
Arguments CallUpdates {T} _ _.
Arguments CallTake {T} _ _.
Arguments CallFind {T} _.
Arguments CallScan {T} _.
Arguments CallCount {T} _.

(** What gorm hands back: the rows read into the destination (entities for
    [Take]/[Find], projections for [Scan]), the count, and the handle's
    [RowsAffected] and [Error] after the call. *)
Record Reply (T R : Type) : Type := {
  rows     : list T;
  scanned  : list R;
  count    : Z;
  affected : Z;
  failure  : option Err
}.
Arguments rows {T R} _.
Arguments scanned {T R} _.
Arguments count {T R} _.
Arguments affected {T R} _.
Arguments failure {T R} _.

(** The process: the package variable [gormDb] and the finisher calls issued
    so far, oldest first. *)
Record World (T : Type) : Type := {
  gormDb : DB;
  calls  : list (Call T)
}.
Arguments gormDb {T} _.
Arguments calls {T} _.

(** Computations that read [gormDb] and call the store. *)
Definition M (T A : Type) : Type := World T -> A * World T.

Definition ret {T A : Type} (a : A) : M T A := fun w => (a, w).

Definition bind {T A B : Type} (m : M T A) (k : A -> M T B) : M T B :=
  fun w => let (a, w') := m w in k a w'.

Declare Scope dao_scope.
Delimit Scope dao_scope with dao.
Notation "x <- m ;; k" := (bind m (fun x => k))
  (at level 61, m at next level, right associativity) : dao_scope.
Notation "' pat <- m ;; k" := (bind m (fun x => match x with pat => k end))
  (at level 61, pat pattern, m at next level, right associativity) : dao_scope.

(** ** The facade *)

Section Dao.

Context {T R : Type}.

(** The zero value of the entity type ([var entity T]). *)
Variable zero : T.

(** [constants.PK], the default primary-key column (the constants package
    is not among the sources). *)
Variable PK : string.

(** gorm and the database behind it: the reply to a finisher call, given
    the calls made before it. *)
Variable store : list (Call T) -> Call T -> Reply T R.

Local Open Scope dao_scope.

(** [Init]: [gormDb = db]. *)
Definition Init (db : DB) : M T unit :=
  fun w => (tt, {| gormDb := db; calls := calls w |}).

(** A chain method or finisher called on [gormDb] itself starts a handle of
    its own with a blank statement; it inherits the error of [gormDb]. *)
Definition getInstance : M T DB :=
  fun w => ({| Stmt := empty_statement; Error := Error (gormDb w);
               RowsAffected := 0 |}, w).

(** The package variable itself, as the early returns hand it out. *)
Definition read_gormDb : M T DB := fun w => (gormDb w, w).

(** A finisher: the call is logged, the store replies, and the handle
    carries the reply's [RowsAffected] and [Error]. *)
Definition finisher (call : DB -> Call T) (db : DB) : M T (Reply T R * DB) :=
  fun w =>
    let r := store (calls w) (call db) in
    ((r, {| Stmt := Stmt db; Error := failure r; RowsAffected := affected r |}),
     {| gormDb := gormDb w; calls := calls w ++ [call db] |}).

Definition defaultBatchSize : Z := 1000.

(** [len(s)] of a slice, as a Go int. *)
Definition len {A : Type} (s : list A) : Z := Z.of_nat (List.length s).

Definition getPKColumn (primaryKeyColumn : list string) : string :=
  match primaryKeyColumn with
  | c :: _ => c
  | [] => PK
  end.

Definition Insert (entity : T) : M T DB :=
  db <- getInstance ;;
  '(_, resultDb) <- finisher (fun db => CallCreate db entity) db ;;
  ret resultDb.

Definition InsertBatch (entities : list T) : M T DB :=
  if len entities =? 0 then read_gormDb
  else
    db <- getInstance ;;
    '(_, resultDb) <-
      finisher (fun db => CallCreateInBatches db entities defaultBatchSize) db ;;
    ret resultDb.

Definition InsertBatchSize (entities : list T) (batchSize : Z) : M T DB :=
  if len entities =? 0 then read_gormDb
  else
    let batchSize := if batchSize <=? 0 then defaultBatchSize else batchSize in
    db <- getInstance ;;
    '(_, resultDb) <-
      finisher (fun db => CallCreateInBatches db entities batchSize) db ;;
    ret resultDb.

Definition DeleteById (id : Value) (primaryKeyColumn : list string) : M T DB :=
  db <- getInstance ;;
  '(_, resultDb) <-
    finisher CallDelete (db_Where (getPKColumn primaryKeyColumn) [id] db) ;;
  ret resultDb.

(** [Delete] reads the descriptor's top-level builder as it stands; it does
    not go through [buildCondition]. *)
Definition Delete (q : Query) : M T DB :=
  db <- getInstance ;;
  '(_, resultDb) <-
    finisher CallDelete
      (db_Where (Builder.String (QueryBuilder q)) (QueryArgs q) db) ;;
  ret resultDb.

Definition DeleteByIds (ids : list Value) (primaryKeyColumn : list string)
  : M T DB :=
  if len ids =? 0 then read_gormDb
  else
    let q := NewQuery in
    let q := In (getPKColumn primaryKeyColumn) ids q in
    resultDb <- Delete q ;;
    ret resultDb.

Definition UpdateById (entity : T) (id : Value) (primaryKeyColumn : list string)
  : M T DB :=
  db <- getInstance ;;
  '(_, resultDb) <-
    finisher (fun db => CallUpdates db (inl entity))
      (db_Where (getPKColumn primaryKeyColumn) [id] db) ;;
  ret resultDb.

Definition Update (q : Query) : M T DB :=
  db <- getInstance ;;
  '(_, resultDb) <-
    finisher (fun db => CallUpdates db (inr (UpdateMap q)))
      (db_Where (Builder.String (QueryBuilder q)) (QueryArgs q) db) ;;
  ret resultDb.

Definition SelectById (id : Value) : M T (option T * DB) :=
  db <- getInstance ;;
  '(r, resultDb) <- finisher (fun db => CallTake db [id]) db ;;
  let entity := hd zero (rows r) in
  if RowsAffected resultDb =? 0 then ret (None, resultDb)
  else ret (Some entity, resultDb).

(** [q] is the descriptor behind the pointer ([None] for a nil pointer); the
    descriptor as [buildCondition] leaves it is returned with the handle. *)
Definition buildCondition (q : option Query) : M T (option Query * DB) :=
  resultDb <- getInstance ;;
  match q with
  | None => ret (None, resultDb)
  | Some q =>
      let resultDb :=
        if 0 <? len (DistinctColumns q)
        then db_Distinct (DistinctColumns q) resultDb else resultDb in
      let resultDb :=
        if 0 <? len (SelectColumns q)
        then db_Select (SelectColumns q) resultDb else resultDb in
      let '(q, resultDb) :=
        if 0 <? Builder.Len (QueryBuilder q) then
          let q :=
            if 0 <? Builder.Len (AndBracketBuilder q) then
              let q := set_QueryArgs (QueryArgs q ++ AndBracketArgs q) q in
              QueryBuilder_WriteString (Builder.String (AndBracketBuilder q)) q
            else q in
          let q :=
            if 0 <? Builder.Len (OrBracketBuilder q) then
              let q := set_QueryArgs (QueryArgs q ++ OrBracketArgs q) q in
              QueryBuilder_WriteString (Builder.String (OrBracketBuilder q)) q
            else q in
          (q, db_Where (Builder.String (QueryBuilder q)) (QueryArgs q) resultDb)
        else (q, resultDb) in
      let resultDb :=
        if 0 <? Builder.Len (OrderBuilder q)
        then db_Order (Builder.String (OrderBuilder q)) resultDb else resultDb in
      let resultDb :=
        if 0 <? Builder.Len (GroupBuilder q)
        then db_Group (Builder.String (GroupBuilder q)) resultDb else resultDb in
      let resultDb :=
        if 0 <? Builder.Len (HavingBuilder q)
        then db_Having (Builder.String (HavingBuilder q)) (HavingArgs q) resultDb
        else resultDb in
      ret (Some q, resultDb)
  end.

Definition SelectOne (q : option Query) : M T (option T * DB * option Query) :=
  '(q, resultDb) <- buildCondition q ;;
  '(r, resultDb) <- finisher (fun db => CallTake db []) resultDb ;;
  let entity := hd zero (rows r) in
  if RowsAffected resultDb =? 0 then ret (None, resultDb, q)
  else ret (Some entity, resultDb, q).

Definition SelectList (q : option Query) : M T (list T * DB * option Query) :=
  '(q, resultDb) <- buildCondition q ;;
  '(r, resultDb) <- finisher CallFind resultDb ;;
  ret (rows r, resultDb, q).

Definition SelectByIds (ids : list Value) (primaryKeyColumn : list string)
  : M T (list T * DB * option Query) :=
  let q := NewQuery in
  let q := In (getPKColumn primaryKeyColumn) ids q in
  SelectList (Some q).

Definition SelectListModel (q : option Query)
  : M T (list R * DB * option Query) :=
  '(q, resultDb) <- buildCondition q ;;
  '(r, resultDb) <- finisher CallScan resultDb ;;
  ret (scanned r, resultDb, q).

Definition SelectCount (q : option Query) : M T (Z * DB * option Query) :=
  '(q, resultDb) <- buildCondition q ;;
  '(r, resultDb) <- finisher CallCount resultDb ;;
  ret (count r, resultDb, q).

(** [Scopes(paginate(page))] registers the function; the finisher that
    follows runs it once on the handle before it queries. *)
Definition SelectPage (page : Page T) (q : option Query)
  : M T (Page T * DB * option Query) :=
  '(total, countDb, q) <- SelectCount q ;;
  if match Error countDb with Some _ => true | None => false end
  then ret (page, countDb, q)
  else
    let page := set_Total total page in
    '(q, resultDb) <- buildCondition q ;;
    let '(env, resultDb) := paginate_func (paginate page) resultDb in
    let page := p env in
    '(r, resultDb) <- finisher CallFind resultDb ;;
    let page := set_Records (rows r) page in
    ret (page, resultDb, q).

Definition SelectPageModel (page : Page R) (q : option Query)
  : M T (Page R * DB * option Query) :=
  '(total, countDb, q) <- SelectCount q ;;
  if match Error countDb with Some _ => true | None => false end
  then ret (page, countDb, q)
  else
    let page := set_Total total page in
    '(q, resultDb) <- buildCondition q ;;
    let '(env, resultDb) := paginate_func (paginate page) resultDb in
    let page := p env in
    '(r, resultDb) <- finisher CallScan resultDb ;;
    let page := set_Records (scanned r) page in
    ret (page, resultDb, q).

End Dao.

(** ** Vocabulary of the statements *)

(** The descriptor [q] with its top-level builder and arguments replaced. *)
Definition with_condition (b : Builder.t) (args : list Value) (q : Query) : Query :=
  {| DistinctColumns := DistinctColumns q; SelectColumns := SelectColumns q;
     QueryBuilder := b; QueryArgs := args;
     AndBracketBuilder := AndBracketBuilder q; AndBracketArgs := AndBracketArgs q;
     OrBracketBuilder := OrBracketBuilder q; OrBracketArgs := OrBracketArgs q;
     OrderBuilder := OrderBuilder q; GroupBuilder := GroupBuilder q;
     HavingBuilder := HavingBuilder q; HavingArgs := HavingArgs q;
     UpdateMap := UpdateMap q |}.

(** The arguments a bracket group contributes: none while its builder is
    empty. *)
Definition bracket_args (b : Builder.t) (args : list Value) : list Value :=
  if 0 <? Builder.Len b then args else [].

(** [n] successive calls of the function [paginate] returns. *)
Fixpoint paginate_func_iter {A : Type} (n : nat) (env : PaginateEnv A) (db : DB)
  : PaginateEnv A * DB :=
  match n with
  | O => (env, db)
  | S n' => let (env', db') := paginate_func env db in paginate_func_iter n' env' db'
  end.

(** The handle a finisher was called on, and the condition it carried. *)
Definition call_handle {T : Type} (c : Call T) : DB :=
  match c with
  | CallCreate db _ | CallCreateInBatches db _ _ | CallDelete db
  | CallUpdates db _ | CallTake db _ | CallFind db | CallScan db
  | CallCount db => db
  end.

Definition call_condition {T : Type} (c : Call T) : list (string * list Value) :=
  Where (Stmt (call_handle c)).

(** The calls a computation issues when run in [w]. *)
Definition issued {T A : Type} (m : M T A) (w : World T) : list (Call T) :=
  skipn (List.length (calls w)) (calls (snd (m w))).

(** The text [s] written [n] times over, and the arguments [l] appended [n]
    times over. *)
Fixpoint repeat_text (n : nat) (s : string) : string :=
  match n with
  | O => ""
  | S n' => String.append s (repeat_text n' s)
  end.

Fixpoint repeat_args (n : nat) (l : list Value) : list Value :=
  match n with
  | O => []
  | S n' => l ++ repeat_args n' l
  end.

(** The descriptor after [n] successive runs of [buildCondition] through the
    same pointer, as [n] reads of one descriptor perform them. *)
Fixpoint buildCondition_iter {T : Type} (n : nat) (q : option Query)
  : M T (option Query) :=
  match n with
  | O => ret q
  | S n' => bind (buildCondition q) (fun '(q', _) => buildCondition_iter n' q')
  end.

(** A descriptor that has the top-level condition of [q] and nothing else. *)
Definition top_only (q : Query) : Query :=
  with_condition (QueryBuilder q) (QueryArgs q) NewQuery.

(** The handle a finisher leaves and the world after it, for the call [c]
    issued in [w] against [store]. *)
Definition outcome {T R : Type} (store : list (Call T) -> Call T -> Reply T R)
    (w : World T) (c : Call T) : DB * World T :=
  let r := store (calls w) c in
  ({| Stmt := Stmt (call_handle c); Error := failure r;
      RowsAffected := affected r |},
   {| gormDb := gormDb w; calls := calls w ++ [c] |}).

(** A computation that leaves the package handle alone and only adds to the
    log of store calls, at most [n] of them. *)
Definition adds_calls {T A : Type} (n : nat) (m : M T A) : Prop :=
  forall w : World T,
    gormDb (snd (m w)) = gormDb w
    /\ exists cs : list (Call T),
         calls (snd (m w)) = calls w ++ cs /\ (List.length cs <= n)%nat.

(** ** Sample data

    A table of 23 rows behind a store that counts and slices it, a store
    that answers a single-row fetch as gorm does when nothing matches, a
    store whose count fails, and a descriptor with an AND-bracket group. *)

Module Sample.

Definition blank : DB :=
  {| Stmt := empty_statement; Error := None; RowsAffected := 0 |}.

Definition world : World Z := {| gormDb := blank; calls := [] |}.

Definition table : list Z := map Z.of_nat (seq 1 23).

Definition slice (s : Statement) (l : list Z) : list Z :=
  let l := match Offset s with Some o => skipn (Z.to_nat o) l | None => l end in
  match Limit s with Some n => firstn (Z.to_nat n) l | None => l end.

Definition no_rows (e : option Err) : Reply Z string :=
  {| rows := []; scanned := []; count := 0; affected := 0; failure := e |}.

(** Counts and reads [table]; a single-row fetch finds nothing and, as
    gorm's [Take] does, reports [ErrRecordNotFound]. *)
Definition store (_ : list (Call Z)) (c : Call Z) : Reply Z string :=
  match c with
  | CallCount _ =>
      {| rows := []; scanned := []; count := Z.of_nat (List.length table);
         affected := 1; failure := None |}
  | CallFind db =>
      let r := slice (Stmt db) table in
      {| rows := r; scanned := []; count := 0;
         affected := Z.of_nat (List.length r); failure := None |}
  | CallTake _ _ => no_rows (Some ErrRecordNotFound)
  | _ => no_rows None
  end.

(** Every call fails: the database cannot be reached. *)
Definition down (_ : list (Call Z)) (_ : Call Z) : Reply Z string :=
  no_rows (Some (ErrStore "connection refused")).

(** [active = ?] at top level with the AND-bracket [(age > ?)] and the
    OR-bracket [(status = ?)]. *)
Definition q : Query :=
  {| DistinctColumns := []; SelectColumns := [];
     QueryBuilder := "active = ?"; QueryArgs := [VBool true];
     AndBracketBuilder := " AND (age > ?)"; AndBracketArgs := [VInt 18];
     OrBracketBuilder := " OR (status = ?)"; OrBracketArgs := [VStr "banned"];
     OrderBuilder := Builder.empty; GroupBuilder := Builder.empty;
     HavingBuilder := Builder.empty; HavingArgs := [];
     UpdateMap := [] |}.

(** Bracket groups only: nothing at top level. *)
Definition brackets_only : Query :=
  {| DistinctColumns := []; SelectColumns := [];
     QueryBuilder := Builder.empty; QueryArgs := [];
     AndBracketBuilder := " AND (age > ?)"; AndBracketArgs := [VInt 18];
     OrBracketBuilder := " OR (status = ?)"; OrBracketArgs := [VStr "banned"];
     OrderBuilder := Builder.empty; GroupBuilder := Builder.empty;
     HavingBuilder := Builder.empty; HavingArgs := [];
     UpdateMap := [] |}.

(** A single-row fetch finds row 42. *)
Definition finds (_ : list (Call Z)) (c : Call Z) : Reply Z string :=
  match c with
  | CallTake _ _ =>
      {| rows := [42]; scanned := []; count := 0; affected := 1; failure := None |}
  | _ => no_rows None
  end.

(** Counts [table] and scans the names of the rows a page holds. *)
Definition scans (_ : list (Call Z)) (c : Call Z) : Reply Z string :=
  match c with
  | CallCount _ =>
      {| rows := []; scanned := []; count := Z.of_nat (List.length table);
         affected := 1; failure := None |}
  | CallScan db =>
      let r := slice (Stmt db) table in
      {| rows := []; scanned := map (fun _ => "row") r; count := 0;
         affected := Z.of_nat (List.length r); failure := None |}
  | _ => no_rows None
  end.

(** A top-level condition only, ordered and grouped. *)
Definition plain : Query :=
  {| DistinctColumns := []; SelectColumns := ["name"; "age"];
     QueryBuilder := "active = ?"; QueryArgs := [VBool true];
     AndBracketBuilder := Builder.empty; AndBracketArgs := [];
     OrBracketBuilder := Builder.empty; OrBracketArgs := [];
     OrderBuilder := "age DESC"; GroupBuilder := Builder.empty;
     HavingBuilder := Builder.empty; HavingArgs := [];
     UpdateMap := [("age", VInt 0)] |}.

End Sample.

(** * Properties *)

(** ** Integers, builders and placeholders *)

Lemma wrap_in_range (z : Z) : GoInt.in_range z -> GoInt.wrap z = z.
Proof.
  unfold GoInt.in_range, GoInt.min_int, GoInt.max_int, GoInt.wrap. intros H.
  rewrite Z.mod_small; lia.
Qed.

Lemma wrap_mul_wrap_l (a b : Z) :
  GoInt.wrap (GoInt.wrap a * b) = GoInt.wrap (a * b).
Proof.
  unfold GoInt.wrap. f_equal.
  replace ((a + 2 ^ 63) mod 2 ^ 64 - 2 ^ 63) with
    (a + 2 ^ 63 - 2 ^ 63 - 2 ^ 64 * ((a + 2 ^ 63) / 2 ^ 64))
    by (pose proof (Z.div_mod (a + 2 ^ 63) (2 ^ 64)); lia).
  replace ((a + 2 ^ 63 - 2 ^ 63 - 2 ^ 64 * ((a + 2 ^ 63) / 2 ^ 64)) * b + 2 ^ 63)
    with (a * b + 2 ^ 63 + (- ((a + 2 ^ 63) / 2 ^ 64) * b) * 2 ^ 64) by ring.
  apply Z.mod_add. lia.
Qed.


Lemma Len_zero (b : Builder.t) : Builder.Len b = 0 -> b = "".
Proof.
  unfold Builder.Len. destruct b; simpl; [reflexivity | lia].
Qed.

Lemma Len_append (b : Builder.t) (s : string) :
  Builder.Len (String.append b s) = Builder.Len b + Builder.Len s.
Proof.
  unfold Builder.Len. induction b as [| c b IH]; cbn [String.append String.length].
  - lia.
  - lia.
Qed.

Lemma Len_nonneg (b : Builder.t) : 0 <= Builder.Len b.
Proof. unfold Builder.Len. lia. Qed.

Lemma append_empty_r (s : string) : String.append s "" = s.
Proof. induction s as [| c s IH]; simpl; [reflexivity | now rewrite IH]. Qed.

Lemma append_assoc (s1 s2 s3 : string) :
  String.append (String.append s1 s2) s3 = String.append s1 (String.append s2 s3).
Proof. induction s1 as [| c s1 IH]; simpl; [reflexivity | now rewrite IH]. Qed.

Lemma parity_empty {A : Type} (b : Builder.t) (args : list A) :
  parity b args -> Builder.Len b = 0 -> args = [].
Proof.
  unfold parity, Builder.String. intros H HL. apply Len_zero in HL. subst b.
  destruct args; [reflexivity | discriminate].
Qed.

(** ** [buildCondition] *)

Section BuildCondition.

Context {T : Type}.
Implicit Types (q : Query) (w : World T).

(** What one run of [buildCondition] does to the descriptor and which
    condition it puts on the handle. *)
Lemma buildCondition_run q w :
  exists db,
    buildCondition (Some q) w =
      ((Some (if 0 <? Builder.Len (QueryBuilder q)
              then with_condition
                     (String.append (QueryBuilder q)
                        (String.append (AndBracketBuilder q) (OrBracketBuilder q)))
                     (QueryArgs q
                        ++ bracket_args (AndBracketBuilder q) (AndBracketArgs q)
                        ++ bracket_args (OrBracketBuilder q) (OrBracketArgs q))
                     q
              else q), db), w)
    /\ Error db = Error (gormDb w)
    /\ RowsAffected db = 0
    /\ Offset (Stmt db) = None
    /\ Limit (Stmt db) = None
    /\ Where (Stmt db) =
         if 0 <? Builder.Len (QueryBuilder q)
         then [(String.append (QueryBuilder q)
                  (String.append (AndBracketBuilder q) (OrBracketBuilder q)),
                QueryArgs q
                  ++ bracket_args (AndBracketBuilder q) (AndBracketArgs q)
                  ++ bracket_args (OrBracketBuilder q) (OrBracketArgs q))]
         else [].
Proof.
  destruct q as [dc sc qb qa ab aa ob oa orb gb hb ha um]; cbn.
  destruct (0 <? Builder.Len qb) eqn:Htop;
    destruct (0 <? Builder.Len ab) eqn:Hand;
    destruct (0 <? Builder.Len ob) eqn:Hor.
  all: unfold buildCondition, bind, getInstance, ret, bracket_args.
  all: repeat (cbn; rewrite ?Htop, ?Hand, ?Hor).
  all: unfold with_condition, set_QueryArgs, QueryBuilder_WriteString,
         Builder.WriteString, Builder.String; cbn.
  all: try (apply Z.ltb_ge in Hand; pose proof (Len_nonneg ab);
            assert (ab = "") by (apply Len_zero; lia); subst ab).
  all: try (apply Z.ltb_ge in Hor; pose proof (Len_nonneg ob);
            assert (ob = "") by (apply Len_zero; lia); subst ob).
  all: cbn; rewrite ?append_empty_r, ?app_nil_r, ?append_assoc, <- ?app_assoc.
  all: eexists; split; [reflexivity |].
  all: destruct (0 <? len dc), (0 <? len sc), (0 <? Builder.Len orb),
         (0 <? Builder.Len gb), (0 <? Builder.Len hb); cbn; auto 10.
Qed.
End BuildCondition.

Lemma skipn_length_app {A : Type} (l l' : list A) :
  skipn (List.length l) (l ++ l') = l'.
Proof. induction l as [| a l IH]; simpl; [reflexivity | exact IH]. Qed.

Lemma paginate_func_limit_offset {A : Type} (env : PaginateEnv A) (db : DB) :
  let page := if page env <=? 0 then 1 else page env in
  let pageSize := if pageSize env <=? 0 then 10 else pageSize env in
  Offset (Stmt (snd (paginate_func env db))) = Some (GoInt.wrap ((page - 1) * pageSize))
  /\ Limit (Stmt (snd (paginate_func env db))) = Some pageSize
  /\ Where (Stmt (snd (paginate_func env db))) = Where (Stmt db).
Proof.
  cbn. unfold GoInt.mul, GoInt.sub. rewrite wrap_mul_wrap_l. auto.
Qed.

#[local] Arguments buildCondition : simpl never.
#[local] Arguments SelectCount : simpl never.

Section Facade.

Context {T R : Type}.
Variable zero : T.
Variable PK : string.
Variable store : list (Call T) -> Call T -> Reply T R.
Implicit Types (w : World T).

Lemma buildCondition_handle (q : option Query) w :
  exists q' db,
    buildCondition q w = ((q', db), w)
    /\ Error db = Error (gormDb w)
    /\ RowsAffected db = 0
    /\ Offset (Stmt db) = None
    /\ Limit (Stmt db) = None.
Proof.
  destruct q as [q |].
  - destruct (buildCondition_run q w) as (db & E & He & Hr & Ho & Hl & _).
    eauto 10.
  - do 2 eexists. split; [reflexivity | cbn; auto].
Qed.

(** [SelectCount] is [buildCondition] followed by one [Count] on its
    handle. *)
Lemma SelectCount_run (q : option Query) w q' db :
  buildCondition q w = ((q', db), w) ->
  let r := store (calls w) (CallCount db) in
  SelectCount store q w =
    ((count r,
      {| Stmt := Stmt db; Error := failure r; RowsAffected := affected r |},
      q'),
     {| gormDb := gormDb w; calls := calls w ++ [CallCount db] |}).
Proof.
  intros E. unfold SelectCount, bind. rewrite E. reflexivity.
Qed.

Lemma issued_one {A : Type} (m : M T A) w (a : A) (c : Call T) :
  m w = (a, {| gormDb := gormDb w; calls := calls w ++ [c] |}) ->
  issued m w = [c].
Proof.
  intros E. unfold issued. rewrite E. cbn. apply skipn_length_app.
Qed.

Lemma issued_none {A : Type} (m : M T A) w (a : A) :
  m w = (a, w) -> issued m w = [].
Proof.
  intros E. unfold issued. rewrite E. cbn.
  rewrite <- (app_nil_r (calls w)) at 2. apply skipn_length_app.
Qed.

(** ** Finalizing the condition *)


(** C5: with an empty top-level builder, [buildCondition] leaves the
    descriptor as it is and applies no WHERE clause: the condition text of
    the statement is empty and it has no arguments, the query that is then
    executed carries no condition, and no error is raised. *)
Theorem buildCondition_empty_builder (q : Query) w :
  Builder.Len (QueryBuilder q) = 0 ->
  exists db,
    buildCondition (Some q) w = ((Some q, db), w)
    /\ Builder.String (QueryBuilder q) = ""
    /\ Where (Stmt db) = []
    /\ where_text (Where (Stmt db)) = ""
    /\ where_args (Where (Stmt db)) = []
    /\ Error db = Error (gormDb w)
    /\ (parity (QueryBuilder q) (QueryArgs q) -> QueryArgs q = [])
    /\ issued (SelectList store (Some q)) w = [CallFind db].
Proof.
  intros HL.
  destruct (buildCondition_run q w) as (db & E & He & _ & _ & _ & Hw).
  rewrite HL in E, Hw. cbn in E, Hw.
  exists db. rewrite Hw. cbn.
  repeat split; auto.
  - apply Len_zero, HL.
  - intros P. exact (parity_empty _ _ P HL).
  - eapply issued_one. unfold SelectList, bind. rewrite E. reflexivity.
Qed.

(** C9: with an empty top-level builder and a non-empty AND-bracket or
    OR-bracket builder, [buildCondition] applies no WHERE clause: nothing
    is merged into the descriptor, the bracket text and arguments reach
    neither the handle nor the executed query, and no error is raised. *)
Theorem buildCondition_drops_brackets (q : Query) w :
  Builder.Len (QueryBuilder q) = 0 ->
  0 < Builder.Len (AndBracketBuilder q) \/ 0 < Builder.Len (OrBracketBuilder q) ->
  exists db,
    buildCondition (Some q) w = ((Some q, db), w)
    /\ Where (Stmt db) = []
    /\ where_args (Where (Stmt db)) = []
    /\ Error db = Error (gormDb w)
    /\ issued (SelectList store (Some q)) w = [CallFind db].
Proof.
  intros HL _.
  destruct (buildCondition_run q w) as (db & E & He & _ & _ & _ & Hw).
  rewrite HL in E, Hw. cbn in E, Hw.
  exists db. rewrite Hw. cbn.
  repeat split; auto.
  eapply issued_one. unfold SelectList, bind. rewrite E. reflexivity.
Qed.

(** [SelectPage] when the count succeeds: a count on the handle of a first
    [buildCondition], then a [Find] on the handle of a second one, run on
    the descriptor the first one left, with offset and limit added. *)
Lemma SelectPage_run (page : Page T) (q q1 q2 : option Query) w (cdb db2 : DB) :
  buildCondition q w = ((q1, cdb), w) ->
  let r1 := store (calls w) (CallCount cdb) in
  let w1 := {| gormDb := gormDb w; calls := calls w ++ [CallCount cdb] |} in
  failure r1 = None ->
  buildCondition q1 w1 = ((q2, db2), w1) ->
  let ddb := snd (paginate_func (paginate (set_Total (count r1) page)) db2) in
  let r2 := store (calls w1) (CallFind ddb) in
  SelectPage store page q w =
    ((set_Records (rows r2) (set_Total (count r1) page),
      {| Stmt := Stmt ddb; Error := failure r2; RowsAffected := affected r2 |},
      q2),
     {| gormDb := gormDb w; calls := calls w1 ++ [CallFind ddb] |}).
Proof.
  intros E1 r1 w1 Hok E2 ddb r2.
  unfold SelectPage, bind. rewrite (SelectCount_run q w q1 cdb E1).
  cbv zeta. fold r1 w1. cbn [Error]. rewrite Hok, E2. reflexivity.
Qed.

(** ** Paginated reads *)

(** C3: when the count step of [SelectPage] or [SelectPageModel] comes
    back with an error, the operation returns the page exactly as it was
    passed in (so [Total] keeps its value) together with the handle of the
    count, whose error is the one returned; the store has received the
    count call and nothing else, so the data query was never issued. *)
Theorem SelectPage_count_error
    (page : Page T) (pageR : Page R) (q : option Query) w
    (total : Z) (countDb : DB) (q1 : option Query) (w1 : World T) :
  SelectCount store q w = ((total, countDb, q1), w1) ->
  Error countDb <> None ->
  SelectPage store page q w = ((page, countDb, q1), w1)
  /\ SelectPageModel store pageR q w = ((pageR, countDb, q1), w1)
  /\ Total (fst (fst (fst (SelectPage store page q w)))) = Total page
  /\ Total (fst (fst (fst (SelectPageModel store pageR q w)))) = Total pageR
  /\ Error (snd (fst (fst (SelectPage store page q w)))) = Error countDb
  /\ exists db,
       issued (SelectPage store page q) w = [CallCount db]
       /\ issued (SelectPageModel store pageR q) w = [CallCount db].
Proof.
  intros Hc He.
  assert (E1 : SelectPage store page q w = ((page, countDb, q1), w1)).
  { unfold SelectPage, bind. rewrite Hc.
    destruct (Error countDb); [reflexivity | congruence]. }
  assert (E2 : SelectPageModel store pageR q w = ((pageR, countDb, q1), w1)).
  { unfold SelectPageModel, bind. rewrite Hc.
    destruct (Error countDb); [reflexivity | congruence]. }
  rewrite E1, E2. cbn. repeat split.
  destruct (buildCondition_handle q w) as (q' & db & E & _).
  pose proof (SelectCount_run q w q' db E) as Hrun. cbv zeta in Hrun.
  rewrite Hc in Hrun. injection Hrun as _ _ _ Hw1. subst w1.
  exists db. split; eapply issued_one; eassumption.
Qed.


(** ** Empty batches *)

(** C8: on an empty entity list [InsertBatch] (default chunk size) and
    [InsertBatchSize] (any chunk size), and on an empty id list
    [DeleteByIds], return the package handle itself, untouched, and leave
    the log of store calls as it was: no store call, and no error on a
    handle that had none. *)
Theorem empty_input_is_noop w (batchSize : Z) (primaryKeyColumn : list string) :
  Error (gormDb w) = None ->
  InsertBatch store [] w = (gormDb w, w)
  /\ InsertBatchSize store [] batchSize w = (gormDb w, w)
  /\ DeleteByIds PK store [] primaryKeyColumn w = (gormDb w, w)
  /\ Error (fst (InsertBatch store [] w)) = None
  /\ Error (fst (InsertBatchSize store [] batchSize w)) = None
  /\ Error (fst (DeleteByIds PK store [] primaryKeyColumn w)) = None
  /\ issued (InsertBatch store []) w = []
  /\ issued (InsertBatchSize store [] batchSize) w = []
  /\ issued (DeleteByIds PK store [] primaryKeyColumn) w = [].
Proof.
  intros Hok. cbn.
  repeat split; auto; eapply issued_none; reflexivity.
Qed.

(** ** Single-row fetches *)

(** C6 (as amended): when the store reports zero affected rows for the
    [Take] of [SelectById] or [SelectOne], the operation returns no record
    together with the handle of that call: its [RowsAffected] is zero and
    its [Error] is exactly what the store set, so the outcome carries no
    error whenever the store reports none; the facade adds no error of its
    own and clears none. *)
Theorem select_single_zero_rows :
  (forall (id : Value) w,
      let r := store (calls w) (CallTake (fst (getInstance w)) [id]) in
      affected r = 0 ->
      exists resultDb w',
        SelectById zero store id w = ((None, resultDb), w')
        /\ RowsAffected resultDb = 0
        /\ Error resultDb = failure r
        /\ (failure r = None -> Error resultDb = None))
  /\ (forall (q : option Query) w,
        let db := snd (fst (buildCondition q w)) in
        let r := store (calls w) (CallTake db []) in
        affected r = 0 ->
        exists resultDb q' w',
          SelectOne zero store q w = ((None, resultDb, q'), w')
          /\ RowsAffected resultDb = 0
          /\ Error resultDb = failure r
          /\ (failure r = None -> Error resultDb = None)).
Proof.
  split.
  - intros id w r Hr. unfold SelectById, bind, getInstance, finisher.
    cbn in r. cbn. fold r. rewrite Hr. cbn.
    do 2 eexists. repeat split; auto.
  - intros q w db r Hr.
    destruct (buildCondition_handle q w) as (q' & db' & E & _).
    unfold SelectOne, bind, finisher. subst r db. rewrite E in *.
    cbn in *. rewrite Hr. cbn.
    do 3 eexists. repeat split; auto.
Qed.

(** ** Pagination *)

(** C10: [paginate] and the function it returns, however often that is
    called, leave the Page as it was: normalization lands in the captured
    local variables only, and the page [SelectPage] hands back has the
    [Current] and [Size] it was given. *)
Theorem paginate_keeps_page :
  (forall (A : Type) (pg : Page A) (db : DB) (n : nat),
      p (paginate pg) = pg
      /\ p (fst (paginate_func_iter n (paginate pg) db)) = pg)
  /\ (forall (A : Type) (pg : Page A) (db : DB),
        page (fst (paginate_func (paginate pg) db))
        = (if Current pg <=? 0 then 1 else Current pg)
        /\ pageSize (fst (paginate_func (paginate pg) db))
           = (if Size pg <=? 0 then 10 else Size pg))
  /\ (forall (pg : Page T) (q : option Query) w,
        Current (fst (fst (fst (SelectPage store pg q w)))) = Current pg
        /\ Size (fst (fst (fst (SelectPage store pg q w)))) = Size pg).
Proof.
  split; [| split].
  - intros A pg db n. split; [reflexivity |].
    assert (G : forall (env : PaginateEnv A) d,
               p (fst (paginate_func_iter n env d)) = p env).
    { induction n as [| n IH]; intros env d; cbn; [reflexivity |].
      rewrite IH. reflexivity. }
    rewrite G. reflexivity.
  - intros A pg db. split; reflexivity.
  - intros pg q w.
    destruct (buildCondition_handle q w) as (q' & cdb & E & _).
    pose proof (SelectCount_run q w q' cdb E) as Hrun. cbv zeta in Hrun.
    unfold SelectPage, bind. rewrite Hrun.
    destruct (failure (store (calls w) (CallCount cdb))); cbn.
    + split; reflexivity.
    + match goal with
      | |- context [buildCondition q' ?w1] =>
          destruct (buildCondition_handle q' w1) as (q2 & db2 & E2 & _);
          rewrite E2
      end.
      cbn. split; reflexivity.
Qed.

(** X15, the defect behind C1: with a non-empty top-level builder, the data
    query of [SelectPage] carries the condition of the count query followed
    once more by the bracket text, and its arguments followed once more by
    the bracket arguments. *)
Lemma SelectPage_merges_twice (page : Page T) (q : Query) w :
  0 < Builder.Len (QueryBuilder q) ->
  Error (snd (fst (fst (SelectCount store (Some q) w)))) = None ->
  let brackets := String.append (AndBracketBuilder q) (OrBracketBuilder q) in
  let bargs := bracket_args (AndBracketBuilder q) (AndBracketArgs q)
               ++ bracket_args (OrBracketBuilder q) (OrBracketArgs q) in
  map call_condition (issued (SelectPage store page (Some q)) w) =
    [ [(String.append (QueryBuilder q) brackets, QueryArgs q ++ bargs)];
      [(String.append (String.append (QueryBuilder q) brackets) brackets,
        (QueryArgs q ++ bargs) ++ bargs)] ].
Proof.
  intros Htop Hok brackets bargs.
  destruct (buildCondition_run q w) as (cdb & E1 & _ & _ & _ & _ & Hw1).
  apply Z.ltb_lt in Htop. rewrite Htop in E1, Hw1. fold brackets bargs in E1, Hw1.
  rewrite (SelectCount_run _ _ _ _ E1) in Hok. cbn in Hok.
  set (q1 := with_condition (String.append (QueryBuilder q) brackets)
               (QueryArgs q ++ bargs) q) in *.
  set (w1 := {| gormDb := gormDb w; calls := calls w ++ [CallCount cdb] |}).
  destruct (buildCondition_run q1 w1) as (db2 & E2 & _ & _ & _ & _ & Hw2).
  assert (Htop1 : (0 <? Builder.Len (QueryBuilder q1)) = true).
  { apply Z.ltb_lt. apply Z.ltb_lt in Htop. cbn.
    rewrite Len_append. pose proof (Len_nonneg brackets). lia. }
  rewrite Htop1 in E2, Hw2. cbn in Hw2. fold brackets bargs in Hw2.
  pose proof (SelectPage_run page _ _ _ w cdb db2 E1 Hok E2) as Heq.
  cbv zeta in Heq. fold w1 in Heq.
  unfold issued. rewrite Heq. cbn [snd calls]. unfold w1 at 1. cbn [calls].
  rewrite <- app_assoc, skipn_length_app. cbn [map app].
  unfold call_condition. cbn [call_handle].
  destruct (paginate_func_limit_offset
              (paginate (set_Total (count (store (calls w) (CallCount cdb))) page))
              db2) as (_ & _ & Hwh).
  rewrite Hwh, Hw1, Hw2. reflexivity.
Qed.

End Facade.

(** C4 (as amended): the function [paginate] returns takes the page number
    as 1 when it is not positive and the size as 10 when it is not positive,
    and puts on the handle the limit, which is that size, and the offset,
    which is (page - 1) * size computed in Go's [int]: the product itself
    whenever it fits, and the product reduced modulo 2^64 otherwise.  In
    particular calc(0,5) = (0,5), calc(2,10) = (10,10), calc(-3,0) = (0,10). *)
Theorem paginate_offset_limit (A : Type) (pg : Page A) (db : DB) :
  let page := if Current pg <=? 0 then 1 else Current pg in
  let pageSize := if Size pg <=? 0 then 10 else Size pg in
  Limit (Stmt (snd (paginate_func (paginate pg) db))) = Some pageSize
  /\ Offset (Stmt (snd (paginate_func (paginate pg) db)))
     = Some (GoInt.wrap ((page - 1) * pageSize))
  /\ (GoInt.in_range ((page - 1) * pageSize) ->
      Offset (Stmt (snd (paginate_func (paginate pg) db)))
      = Some ((page - 1) * pageSize)
      /\ calc (Current pg) (Size pg) = (Some ((page - 1) * pageSize), Some pageSize))
  /\ calc 0 5 = (Some 0, Some 5)
  /\ calc 2 10 = (Some 10, Some 10)
  /\ calc (-3) 0 = (Some 0, Some 10).
Proof.
  intros cur siz.
  pose proof (paginate_func_limit_offset (paginate pg) db) as H.
  pose proof (paginate_func_limit_offset
                (paginate (@NewPage unit (Current pg) (Size pg))) Sample.blank) as H'.
  cbv zeta in H, H'.
  change (page (paginate pg)) with (Current pg) in H.
  change (pageSize (paginate pg)) with (Size pg) in H.
  change (page (paginate (@NewPage unit (Current pg) (Size pg))))
    with (Current pg) in H'.
  change (pageSize (paginate (@NewPage unit (Current pg) (Size pg))))
    with (Size pg) in H'.
  fold cur siz in H, H'.
  destruct H as (Ho & Hl & _). destruct H' as (Ho' & Hl' & _).
  repeat split; auto.
  - rewrite Ho, wrap_in_range by assumption. reflexivity.
  - unfold calc. fold Sample.blank.
    rewrite Ho', Hl', wrap_in_range by assumption. reflexivity.
Qed.

Lemma paginate_offset_limit_witness :
  GoInt.in_range ((3 - 1) * 10)
  /\ calc 3 10 = (Some ((3 - 1) * 10), Some 10).
Proof.
  assert (H : GoInt.in_range ((3 - 1) * 10))
    by (unfold GoInt.in_range, GoInt.min_int, GoInt.max_int; lia).
  split; [exact H |].
  exact (proj2 (proj1 (proj2 (proj2
    (paginate_offset_limit unit (NewPage 3 10) Sample.blank))) H)).
Defined.

(** C4, as stated, fails where the product leaves the range of [int]: for
    page 2^62 + 1 and size 4, both valid ints, the offset is 0 and not
    (page - 1) * size = 2^64. *)
Lemma calc_offset_overflows :
  GoInt.in_range (2 ^ 62 + 1)
  /\ GoInt.in_range 4
  /\ calc (2 ^ 62 + 1) 4 = (Some 0, Some 4)
  /\ fst (calc (2 ^ 62 + 1) 4) <> Some ((2 ^ 62 + 1 - 1) * 4).
Proof.
  unfold GoInt.in_range, GoInt.min_int, GoInt.max_int.
  repeat split; try lia; try reflexivity.
  vm_compute. discriminate.
Qed.

(** ** The properties on the sample data *)

(** C1: a paginated read of a descriptor with bracket groups runs the merge
    twice.  On [Sample.q] the count query carries the merged condition, and
    the data query carries the bracket text and the bracket arguments a
    second time: the two conditions differ. *)
Theorem SelectPage_merges_brackets_twice :
  map call_condition
    (issued (SelectPage Sample.store (NewPage 3 10) (Some Sample.q)) Sample.world)
  = [ [("active = ? AND (age > ?) OR (status = ?)",
        [VBool true; VInt 18; VStr "banned"])];
      [("active = ? AND (age > ?) OR (status = ?) AND (age > ?) OR (status = ?)",
        [VBool true; VInt 18; VStr "banned"; VInt 18; VStr "banned"])] ].
Proof. vm_compute. reflexivity. Qed.


Lemma buildCondition_empty_builder_witness :
  Builder.Len (QueryBuilder NewQuery) = 0
  /\ exists db,
       buildCondition (Some NewQuery) Sample.world = ((Some NewQuery, db), Sample.world)
       /\ Where (Stmt db) = []
       /\ issued (SelectList Sample.store (Some NewQuery)) Sample.world = [CallFind db].
Proof.
  assert (H : Builder.Len (QueryBuilder NewQuery) = 0) by reflexivity.
  split; [exact H |].
  destruct (buildCondition_empty_builder Sample.store NewQuery Sample.world H)
    as (db & E & _ & Hw & _ & _ & _ & _ & Hi).
  exists db. auto.
Defined.

Lemma buildCondition_drops_brackets_witness :
  Builder.Len (QueryBuilder Sample.brackets_only) = 0
  /\ 0 < Builder.Len (AndBracketBuilder Sample.brackets_only)
  /\ exists db,
       buildCondition (Some Sample.brackets_only) Sample.world
       = ((Some Sample.brackets_only, db), Sample.world)
       /\ Where (Stmt db) = [].
Proof.
  assert (H : Builder.Len (QueryBuilder Sample.brackets_only) = 0) by reflexivity.
  assert (H' : 0 < Builder.Len (AndBracketBuilder Sample.brackets_only))
    by (vm_compute; reflexivity).
  repeat split; try assumption.
  destruct (buildCondition_drops_brackets Sample.store Sample.brackets_only
              Sample.world H (or_introl H'))
    as (db & E & Hw & _).
  exists db. auto.
Defined.

Lemma SelectPage_count_error_witness :
  Error (snd (fst (fst (SelectCount Sample.down (Some Sample.q) Sample.world))))
  <> None
  /\ fst (fst (fst (SelectPage Sample.down (NewPage 3 10) (Some Sample.q) Sample.world)))
     = NewPage 3 10
  /\ exists db,
       issued (SelectPage Sample.down (NewPage 3 10) (Some Sample.q)) Sample.world
       = [CallCount db].
Proof.
  assert (He : Error (snd (fst (fst
                 (SelectCount Sample.down (Some Sample.q) Sample.world)))) <> None)
    by (vm_compute; discriminate).
  split; [exact He |].
  destruct (SelectPage_count_error Sample.down (NewPage 3 10) (NewPage 3 10)
              (Some Sample.q) Sample.world _ _ _ _ eq_refl He)
    as (E & _ & _ & _ & _ & db & Hi & _).
  split; [rewrite E; reflexivity | exists db; exact Hi].
Defined.


Lemma empty_input_is_noop_witness :
  Error (gormDb Sample.world) = None
  /\ InsertBatch Sample.store [] Sample.world = (Sample.blank, Sample.world)
  /\ InsertBatchSize Sample.store [] (-5) Sample.world = (Sample.blank, Sample.world)
  /\ DeleteByIds "id" Sample.store [] [] Sample.world = (Sample.blank, Sample.world)
  /\ issued (DeleteByIds "id" Sample.store [] []) Sample.world = [].
Proof.
  assert (H : Error (gormDb Sample.world) = None) by reflexivity.
  split; [exact H |].
  destruct (empty_input_is_noop "id" Sample.store Sample.world (-5) [] H)
    as (E1 & E2 & E3 & _ & _ & _ & _ & _ & E4).
  auto.
Defined.

(** C6, as stated, fails on gorm's own answer to a single-row fetch that
    matches nothing: no record, zero affected rows, and the handle carries
    [ErrRecordNotFound]. *)
Lemma SelectById_zero_rows_reports_error :
  affected (Sample.store [] (CallTake Sample.blank [VInt 7])) = 0
  /\ fst (SelectById 0 Sample.store (VInt 7) Sample.world)
     = (None,
        {| Stmt := empty_statement; Error := Some ErrRecordNotFound;
           RowsAffected := 0 |})
  /\ fst (fst (SelectOne 0 Sample.store (Some Sample.q) Sample.world))
     = (None,
        {| Stmt := Stmt (snd (fst (buildCondition (Some Sample.q) Sample.world)));
           Error := Some ErrRecordNotFound; RowsAffected := 0 |}).
Proof. repeat split; reflexivity. Qed.

Lemma select_single_zero_rows_witness :
  affected (Sample.store (calls Sample.world)
              (CallTake (fst (getInstance Sample.world)) [VInt 7])) = 0
  /\ exists resultDb w',
       SelectById 0 Sample.store (VInt 7) Sample.world = ((None, resultDb), w')
       /\ RowsAffected resultDb = 0
       /\ Error resultDb = Some ErrRecordNotFound.
Proof.
  assert (H : affected (Sample.store (calls Sample.world)
                (CallTake (fst (getInstance Sample.world)) [VInt 7])) = 0)
    by reflexivity.
  split; [exact H |].
  destruct (proj1 (select_single_zero_rows 0 Sample.store) (VInt 7) Sample.world H)
    as (resultDb & w' & E & Hr & He & _).
  exists resultDb, w'. auto.
Defined.

(** * Further properties of the facade *)

(** ** What [buildCondition] touches *)

Section Descriptor.

Context {T : Type}.
Implicit Types (q : Query) (w : World T).

(** The clauses other than WHERE on the handle [buildCondition] returns. *)
Lemma buildCondition_stmt q w :
  let db := snd (fst (buildCondition (Some q) w)) in
  Distinct (Stmt db) = DistinctColumns q
  /\ Selects (Stmt db) = SelectColumns q
  /\ Order (Stmt db)
     = (if 0 <? Builder.Len (OrderBuilder q) then [OrderBuilder q] else [])
  /\ Group (Stmt db)
     = (if 0 <? Builder.Len (GroupBuilder q) then [GroupBuilder q] else [])
  /\ Having (Stmt db)
     = (if 0 <? Builder.Len (HavingBuilder q)
        then [(HavingBuilder q, HavingArgs q)] else []).
Proof.
  destruct q as [dc sc qb qa ab aa ob oa orb gb hb ha um].
  unfold buildCondition, bind, getInstance, ret.
  destruct (0 <? Builder.Len qb) eqn:Htop;
    destruct (0 <? Builder.Len ab) eqn:Hand;
    destruct (0 <? Builder.Len ob) eqn:Hor.
  all: repeat (cbn; rewrite ?Htop, ?Hand, ?Hor).
  all: destruct dc, sc; cbn [len List.length Z.of_nat Z.ltb Z.compare].
  all: destruct (0 <? Builder.Len orb), (0 <? Builder.Len gb),
         (0 <? Builder.Len hb); cbn; auto 10.
Qed.

Lemma with_condition_same q : with_condition (QueryBuilder q) (QueryArgs q) q = q.
Proof. destruct q; reflexivity. Qed.

(** X1: [buildCondition] never issues a store call and never touches the
    bracket groups, the clause builders, the column lists or the update map
    of the descriptor: all it does to the descriptor is append to the
    top-level builder and to the top-level arguments. *)
Theorem buildCondition_only_appends q w :
  exists (s : string) (l : list Value) (db : DB),
    buildCondition (Some q) w =
      ((Some (with_condition (String.append (QueryBuilder q) s)
                (QueryArgs q ++ l) q), db), w).
Proof.
  destruct (buildCondition_run q w) as (db & E & _).
  destruct (0 <? Builder.Len (QueryBuilder q)).
  - do 3 eexists. exact E.
  - exists "", [], db. rewrite append_empty_r, app_nil_r, with_condition_same.
    exact E.
Qed.


(** The descriptor after [n] runs, for a non-empty top-level builder. *)
Lemma buildCondition_iter_run (n : nat) q w :
  0 < Builder.Len (QueryBuilder q) ->
  buildCondition_iter n (Some q) w =
    (Some (with_condition
             (String.append (QueryBuilder q)
                (repeat_text n
                   (String.append (AndBracketBuilder q) (OrBracketBuilder q))))
             (QueryArgs q
                ++ repeat_args n
                     (bracket_args (AndBracketBuilder q) (AndBracketArgs q)
                      ++ bracket_args (OrBracketBuilder q) (OrBracketArgs q)))
             q), w).
Proof.
  revert q. induction n as [| n IH]; intros q Htop.
  - cbn. rewrite append_empty_r, app_nil_r, with_condition_same. reflexivity.
  - cbn [buildCondition_iter repeat_text repeat_args]. unfold bind.
    destruct (buildCondition_run q w) as (db & E & _). rewrite E.
    assert (Hb : (0 <? Builder.Len (QueryBuilder q)) = true)
      by (apply Z.ltb_lt; exact Htop).
    rewrite Hb. rewrite IH.
    + cbn [with_condition QueryBuilder QueryArgs AndBracketBuilder AndBracketArgs
             OrBracketBuilder OrBracketArgs].
      rewrite append_assoc. rewrite <- !app_assoc. reflexivity.
    + cbn. rewrite Len_append.
      pose proof (Len_nonneg
        (String.append (AndBracketBuilder q) (OrBracketBuilder q))). lia.
Qed.

End Descriptor.

(** X3: reading through the same descriptor again and again keeps growing
    its condition.  With a non-empty top-level builder, after [n] runs of
    [buildCondition] the next run puts on its handle the top-level text
    followed by [n + 1] copies of the bracket text, with the top-level
    arguments followed by [n + 1] copies of the bracket arguments. *)
Theorem buildCondition_reuse_repeats_brackets
    {T : Type} (n : nat) (q : Query) (w : World T) :
  0 < Builder.Len (QueryBuilder q) ->
  let brackets := String.append (AndBracketBuilder q) (OrBracketBuilder q) in
  let bargs := bracket_args (AndBracketBuilder q) (AndBracketArgs q)
               ++ bracket_args (OrBracketBuilder q) (OrBracketArgs q) in
  exists q' db,
    buildCondition_iter n (Some q) w = (Some q', w)
    /\ snd (fst (buildCondition (Some q') w)) = db
    /\ Where (Stmt db)
       = [(String.append (QueryBuilder q) (repeat_text (S n) brackets),
           QueryArgs q ++ repeat_args (S n) bargs)].
Proof.
  intros Htop brackets bargs.
  pose proof (buildCondition_iter_run n q w Htop) as Hn.
  fold brackets bargs in Hn.
  do 2 eexists. split; [exact Hn |]. split; [reflexivity |].
  set (qn := with_condition
               (String.append (QueryBuilder q) (repeat_text n brackets))
               (QueryArgs q ++ repeat_args n bargs) q) in *.
  destruct (buildCondition_run qn w) as (db & E & _ & _ & _ & _ & Hw).
  rewrite E. cbn [fst snd].
  assert (Hb : (0 <? Builder.Len (QueryBuilder qn)) = true).
  { apply Z.ltb_lt. cbn. rewrite Len_append.
    pose proof (Len_nonneg (repeat_text n brackets)). lia. }
  rewrite Hb in Hw. rewrite Hw. cbn. fold brackets bargs.
  clear. f_equal. f_equal.
  - rewrite append_assoc. f_equal.
    induction n as [| n IH]; cbn.
    + rewrite append_empty_r. reflexivity.
    + rewrite append_assoc, IH. reflexivity.
  - rewrite <- app_assoc. f_equal.
    induction n as [| n IH]; cbn.
    + rewrite app_nil_r. reflexivity.
    + rewrite <- app_assoc, IH. reflexivity.
Qed.

Lemma buildCondition_reuse_repeats_brackets_witness :
  0 < Builder.Len (QueryBuilder Sample.q)
  /\ exists q' db,
       buildCondition_iter 1 (Some Sample.q) Sample.world = (Some q', Sample.world)
       /\ snd (fst (buildCondition (Some q') Sample.world)) = db
       /\ where_args (Where (Stmt db))
          = [VBool true; VInt 18; VStr "banned"; VInt 18; VStr "banned"].
Proof.
  assert (H : 0 < Builder.Len (QueryBuilder Sample.q)) by (vm_compute; reflexivity).
  split; [exact H |].
  destruct (buildCondition_reuse_repeats_brackets 1 Sample.q Sample.world H)
    as (q' & db & E1 & E2 & Hw).
  exists q', db. repeat split; try assumption.
  rewrite Hw. reflexivity.
Defined.

(** ** Calls and outcomes *)

Section Coverage.

Context {T R : Type}.
Variable zero : T.
Variable PK : string.
Variable store : list (Call T) -> Call T -> Reply T R.
Implicit Types (w : World T).

Lemma buildCondition_eta (q : option Query) w :
  buildCondition q w =
    ((fst (fst (buildCondition q w)), snd (fst (buildCondition q w))), w).
Proof.
  destruct (buildCondition_handle q w) as (q' & db & E & _).
  rewrite E. reflexivity.
Qed.

Lemma adds_calls_ret {A : Type} (a : A) : adds_calls 0 (@ret T A a).
Proof.
  intros w. split; [reflexivity |]. exists []. cbn.
  rewrite app_nil_r. split; [reflexivity | lia].
Qed.

Lemma adds_calls_bind {A B : Type} (n1 n2 n : nat) (m : M T A) (k : A -> M T B) :
  adds_calls n1 m -> (forall a, adds_calls n2 (k a)) -> (n1 + n2 <= n)%nat ->
  adds_calls n (bind m k).
Proof.
  intros Hm Hk Hn w. unfold bind.
  destruct (Hm w) as (Hg & cs & Hc & Hl).
  destruct (m w) as [a w1]. cbn [snd] in *.
  destruct (Hk a w1) as (Hg' & cs' & Hc' & Hl').
  split; [congruence |].
  exists (cs ++ cs'). rewrite Hc', Hc, app_assoc, length_app.
  split; [reflexivity | lia].
Qed.

Lemma adds_calls_finisher (call : DB -> Call T) (db : DB) :
  adds_calls 1 (finisher store call db).
Proof.
  intros w. split; [reflexivity |]. eexists. split; [reflexivity |]. cbn. lia.
Qed.

Lemma adds_calls_getInstance : adds_calls 0 (@getInstance T).
Proof.
  intros w. split; [reflexivity |]. exists []. cbn.
  rewrite app_nil_r. split; [reflexivity | lia].
Qed.

Lemma adds_calls_read_gormDb : adds_calls 0 (@read_gormDb T).
Proof.
  intros w. split; [reflexivity |]. exists []. cbn.
  rewrite app_nil_r. split; [reflexivity | lia].
Qed.

Lemma adds_calls_buildCondition (q : option Query) :
  adds_calls 0 (@buildCondition T q).
Proof.
  intros w. rewrite buildCondition_eta. split; [reflexivity |]. exists []. cbn.
  rewrite app_nil_r. split; [reflexivity | lia].
Qed.

Lemma adds_calls_weaken {A : Type} (n n' : nat) (m : M T A) :
  adds_calls n m -> (n <= n')%nat -> adds_calls n' m.
Proof.
  intros H Hn w. destruct (H w) as (Hg & cs & Hc & Hl).
  split; [exact Hg |]. exists cs. split; [exact Hc | lia].
Qed.

Ltac adds_calls_step :=
  first
    [ apply adds_calls_ret
    | apply adds_calls_finisher
    | apply adds_calls_getInstance
    | apply adds_calls_read_gormDb
    | apply adds_calls_buildCondition
    | eapply adds_calls_weaken;
      [ first [ apply adds_calls_ret | apply adds_calls_finisher
              | apply adds_calls_getInstance | apply adds_calls_read_gormDb
              | apply adds_calls_buildCondition ]
      | cbn; lia ]
    | eapply adds_calls_bind;
      [ | intros; repeat match goal with x : (_ * _)%type |- _ => destruct x end | ] ].

Ltac adds_calls_tac :=
  repeat match goal with
         | |- adds_calls _ (if ?c then _ else _) => destruct c
         | |- adds_calls _ (let '(_, _) := ?x in _) => destruct x
         | |- adds_calls _ _ => adds_calls_step
         | |- (_ <= ?n)%nat => is_evar n; apply le_n
         | |- (_ <= _)%nat => cbn; lia
         end.

Lemma adds_calls_SelectCount (q : option Query) :
  adds_calls 1 (SelectCount store q).
Proof. unfold SelectCount. adds_calls_tac. Qed.

(** X4: no operation of the facade changes the package handle [gormDb]
    ([Init] apart), none drops or rewrites a store call already logged, and
    each issues at most one store call, the paginated reads at most two;
    [buildCondition] issues none. *)
Theorem facade_adds_calls :
  (forall entity, adds_calls 1 (Insert store entity))
  /\ (forall entities, adds_calls 1 (InsertBatch store entities))
  /\ (forall entities batchSize, adds_calls 1 (InsertBatchSize store entities batchSize))
  /\ (forall id cols, adds_calls 1 (DeleteById PK store id cols))
  /\ (forall ids cols, adds_calls 1 (DeleteByIds PK store ids cols))
  /\ (forall q, adds_calls 1 (Delete store q))
  /\ (forall entity id cols, adds_calls 1 (UpdateById PK store entity id cols))
  /\ (forall q, adds_calls 1 (Update store q))
  /\ (forall id, adds_calls 1 (SelectById zero store id))
  /\ (forall ids cols, adds_calls 1 (SelectByIds PK store ids cols))
  /\ (forall q, adds_calls 1 (SelectOne zero store q))
  /\ (forall q, adds_calls 1 (SelectList store q))
  /\ (forall q, adds_calls 1 (SelectListModel store q))
  /\ (forall q, adds_calls 1 (SelectCount store q))
  /\ (forall page q, adds_calls 2 (SelectPage store page q))
  /\ (forall page q, adds_calls 2 (SelectPageModel store page q))
  /\ (forall q, adds_calls 0 (@buildCondition T q)).
Proof.
  repeat apply conj; intros.
  - unfold Insert. adds_calls_tac.
  - unfold InsertBatch. adds_calls_tac.
  - unfold InsertBatchSize. adds_calls_tac.
  - unfold DeleteById. adds_calls_tac.
  - unfold DeleteByIds, Delete. adds_calls_tac.
  - unfold Delete. adds_calls_tac.
  - unfold UpdateById. adds_calls_tac.
  - unfold Update. adds_calls_tac.
  - unfold SelectById. adds_calls_tac.
  - unfold SelectByIds, SelectList. adds_calls_tac.
  - unfold SelectOne. adds_calls_tac.
  - unfold SelectList. adds_calls_tac.
  - unfold SelectListModel. adds_calls_tac.
  - apply adds_calls_SelectCount.
  - unfold SelectPage.
    eapply adds_calls_bind; [apply adds_calls_SelectCount | | reflexivity].
    intros [[total countDb] q1]. adds_calls_tac.
  - unfold SelectPageModel.
    eapply adds_calls_bind; [apply adds_calls_SelectCount | | reflexivity].
    intros [[total countDb] q1]. adds_calls_tac.
  - apply adds_calls_buildCondition.
Qed.

(** ** Writes *)

(** X5: [Delete] and [Update] read nothing of the descriptor but the
    top-level builder and arguments (and, for [Update], the update map):
    bracket groups are not merged, so the descriptor reduced to its
    top-level condition gives the same store call and the same result. *)
Theorem Delete_Update_ignore_brackets (q : Query) w :
  Delete store q w = Delete store (top_only q) w
  /\ (forall q2 : Query,
        QueryBuilder q2 = QueryBuilder q -> QueryArgs q2 = QueryArgs q ->
        UpdateMap q2 = UpdateMap q -> Update store q2 w = Update store q w)
  /\ map call_condition (issued (Delete store q) w)
     = [[(QueryBuilder q, QueryArgs q)]]
  /\ map call_condition (issued (Update store q) w)
     = [[(QueryBuilder q, QueryArgs q)]].
Proof.
  repeat apply conj.
  - reflexivity.
  - intros q2 Hb Ha Hu. unfold Update, bind. cbn. rewrite Hb, Ha, Hu. reflexivity.
  - unfold issued. cbn. rewrite skipn_length_app. reflexivity.
  - unfold issued. cbn. rewrite skipn_length_app. reflexivity.
Qed.

(** X6: on a non-empty list, a chunk size that is not positive makes
    [InsertBatchSize] behave exactly as [InsertBatch]: one [CreateInBatches]
    of all the entities with chunk size 1000; a positive chunk size is passed
    on as given. *)
Theorem InsertBatchSize_default (entities : list T) (batchSize : Z) w :
  entities <> [] ->
  InsertBatch store entities w
  = outcome store w
      (CallCreateInBatches (fst (getInstance w)) entities 1000)
  /\ InsertBatchSize store entities batchSize w
     = outcome store w
         (CallCreateInBatches (fst (getInstance w)) entities
            (if batchSize <=? 0 then 1000 else batchSize))
  /\ (batchSize <= 0 ->
      InsertBatchSize store entities batchSize w = InsertBatch store entities w).
Proof.
  intros Hne. destruct entities as [| e es]; [congruence |].
  unfold InsertBatch, InsertBatchSize, len.
  cbn [List.length]. rewrite Nat2Z.inj_succ.
  assert (Hz : (Z.succ (Z.of_nat (List.length es)) =? 0) = false)
    by (apply Z.eqb_neq; lia).
  rewrite Hz.
  repeat apply conj; try reflexivity.
  intros Hle. apply Z.leb_le in Hle. rewrite Hle. reflexivity.
Qed.

(** ** Reads *)

Lemma reads_run_on_buildCondition_handle_aux (q : option Query) w :
  let db := snd (fst (buildCondition q w)) in
  let r := store (calls w) (CallTake db []) in
  SelectOne zero store q w
  = (((if affected r =? 0 then None else Some (hd zero (rows r))),
      fst (outcome store w (CallTake db [])), fst (fst (buildCondition q w))),
     snd (outcome store w (CallTake db []))).
Proof.
  intros db r.
  pose proof (buildCondition_eta q w) as E. fold db in E.
  unfold SelectOne, bind. rewrite E. cbn. fold r.
  destruct (affected r =? 0); reflexivity.
Qed.

(** X7: a nil descriptor is read as no condition at all: [buildCondition]
    returns a blank statement, and the reads run on it. *)
Theorem nil_descriptor_reads_everything w :
  buildCondition None w = ((None, fst (getInstance w)), w)
  /\ Stmt (fst (getInstance w)) = empty_statement
  /\ issued (SelectList store None) w = [CallFind (fst (getInstance w))]
  /\ issued (SelectCount store None) w = [CallCount (fst (getInstance w))]
  /\ issued (SelectOne zero store None) w = [CallTake (fst (getInstance w)) []].
Proof.
  repeat apply conj; try reflexivity.
  - unfold issued. cbn. apply skipn_length_app.
  - unfold issued. cbn. apply skipn_length_app.
  - unfold issued, SelectOne, buildCondition, bind, getInstance, ret. cbn.
    match goal with
    | |- context [if ?c then _ else _] => destruct c
    end; cbn; apply skipn_length_app.
Qed.

(** X8: a single-row fetch returns a record exactly when the store reports
    a non-zero number of affected rows, whatever [Error] says; the record is
    the first row read, or the zero value of the entity type when the store
    read none. *)
Theorem select_single_found (id : Value) (q : option Query) w :
  let r1 := store (calls w) (CallTake (fst (getInstance w)) [id]) in
  let r2 := store (calls w) (CallTake (snd (fst (buildCondition q w))) []) in
  (affected r1 <> 0 ->
     fst (fst (SelectById zero store id w)) = Some (hd zero (rows r1))
     /\ Error (snd (fst (SelectById zero store id w))) = failure r1)
  /\ (affected r2 <> 0 ->
      fst (fst (fst (SelectOne zero store q w))) = Some (hd zero (rows r2))
      /\ Error (snd (fst (fst (SelectOne zero store q w)))) = failure r2)
  /\ (fst (fst (SelectById zero store id w)) = None <-> affected r1 = 0)
  /\ (fst (fst (fst (SelectOne zero store q w))) = None <-> affected r2 = 0).
Proof.
  intros r1 r2.
  assert (E1 : SelectById zero store id w
               = ((if affected r1 =? 0 then None else Some (hd zero (rows r1)),
                   fst (outcome store w (CallTake (fst (getInstance w)) [id]))),
                  snd (outcome store w (CallTake (fst (getInstance w)) [id])))).
  { unfold SelectById, bind. subst r1. cbn.
    match goal with
    | |- context [if ?c then _ else _] => destruct c
    end; reflexivity. }
  pose proof (reads_run_on_buildCondition_handle_aux q w) as E2.
  cbv zeta in E2. fold r2 in E2. rewrite E1, E2. cbn [fst snd outcome Error].
  repeat apply conj.
  - intros H. apply Z.eqb_neq in H. rewrite H. split; reflexivity.
  - intros H. apply Z.eqb_neq in H. rewrite H. split; reflexivity.
  - destruct (Z.eqb_spec (affected r1) 0); intro;
      first [assumption | discriminate].
  - destruct (Z.eqb_spec (affected r1) 0); intro;
      first [reflexivity | contradiction].
  - destruct (Z.eqb_spec (affected r2) 0); intro;
      first [assumption | discriminate].
  - destruct (Z.eqb_spec (affected r2) 0); intro;
      first [reflexivity | contradiction].
Qed.

(** X9: [SelectByIds] has no guard for an empty id list, unlike
    [DeleteByIds]: it still issues its [Find], on a statement whose condition
    is the primary-key column with an empty value list. *)
Theorem SelectByIds_empty_still_queries (cols : list string) w :
  exists db,
    issued (SelectByIds PK store [] cols) w = [CallFind db]
    /\ Where (Stmt db)
       = [(String.append (getPKColumn PK cols) " IN ?", [VList []])]
    /\ issued (DeleteByIds PK store [] cols) w = [].
Proof.
  destruct (buildCondition_run (In (getPKColumn PK cols) [] NewQuery) w)
    as (db & Eb & _ & _ & _ & _ & Hw).
  exists db. repeat apply conj.
  - eapply issued_one. unfold SelectByIds, SelectList, bind.
    rewrite Eb. reflexivity.
  - rewrite Hw.
    assert (Hb : (0 <? Builder.Len
                   (QueryBuilder (In (getPKColumn PK cols) [] NewQuery))) = true).
    { apply Z.ltb_lt. cbn. rewrite Len_append.
      pose proof (Len_nonneg (getPKColumn PK cols)). cbn. lia. }
    rewrite Hb. cbn. rewrite append_empty_r. reflexivity.
  - eapply issued_none. reflexivity.
Qed.

(** ** Paginated reads, continued *)

Lemma buildCondition_again (q : option Query) w (w' : World T) :
  let q1 := fst (fst (buildCondition q w)) in
  let db := snd (fst (buildCondition q w)) in
  let db2 := snd (fst (buildCondition q1 w')) in
  Distinct (Stmt db2) = Distinct (Stmt db)
  /\ Selects (Stmt db2) = Selects (Stmt db)
  /\ Order (Stmt db2) = Order (Stmt db)
  /\ Group (Stmt db2) = Group (Stmt db)
  /\ Having (Stmt db2) = Having (Stmt db).
Proof.
  destruct q as [q |]; [| cbn; auto].
  cbv zeta.
  destruct (buildCondition_run q w) as (db & E & _). rewrite E. cbn [fst snd].
  pose proof (buildCondition_stmt q w) as H. cbv zeta in H.
  rewrite E in H. cbn [fst snd] in H.
  destruct H as (H1 & H2 & H3 & H4 & H5). rewrite H1, H2, H3, H4, H5.
  match goal with
  | |- context [buildCondition (Some ?q1) w'] =>
      pose proof (buildCondition_stmt q1 w') as H'
  end.
  cbv zeta in H'. destruct H' as (K1 & K2 & K3 & K4 & K5).
  rewrite K1, K2, K3, K4, K5.
  destruct (0 <? Builder.Len (QueryBuilder q)); cbn; auto.
Qed.

(** The two store calls of a paginated read whose count succeeds. *)
Lemma SelectPage_success (page : Page T) (q : option Query) w :
  let q1 := fst (fst (buildCondition q w)) in
  let cdb := snd (fst (buildCondition q w)) in
  let r1 := store (calls w) (CallCount cdb) in
  let w1 := {| gormDb := gormDb w; calls := calls w ++ [CallCount cdb] |} in
  let db2 := snd (fst (buildCondition q1 w1)) in
  let ddb := snd (paginate_func (paginate (set_Total (count r1) page)) db2) in
  let r2 := store (calls w1) (CallFind ddb) in
  failure r1 = None ->
  SelectPage store page q w =
    ((set_Records (rows r2) (set_Total (count r1) page),
      {| Stmt := Stmt ddb; Error := failure r2; RowsAffected := affected r2 |},
      fst (fst (buildCondition q1 w1))),
     {| gormDb := gormDb w; calls := calls w1 ++ [CallFind ddb] |}).
Proof.
  intros q1 cdb r1 w1 db2 ddb r2 Hok.
  exact (SelectPage_run store page q q1 _ w cdb db2
           (buildCondition_eta q w) Hok (buildCondition_eta q1 w1)).
Qed.

Lemma SelectPageModel_success (page : Page R) (q : option Query) w :
  let q1 := fst (fst (buildCondition q w)) in
  let cdb := snd (fst (buildCondition q w)) in
  let r1 := store (calls w) (CallCount cdb) in
  let w1 := {| gormDb := gormDb w; calls := calls w ++ [CallCount cdb] |} in
  let db2 := snd (fst (buildCondition q1 w1)) in
  let ddb := snd (paginate_func (paginate (set_Total (count r1) page)) db2) in
  let r2 := store (calls w1) (CallScan ddb) in
  failure r1 = None ->
  SelectPageModel store page q w =
    ((set_Records (scanned r2) (set_Total (count r1) page),
      {| Stmt := Stmt ddb; Error := failure r2; RowsAffected := affected r2 |},
      fst (fst (buildCondition q1 w1))),
     {| gormDb := gormDb w; calls := calls w1 ++ [CallScan ddb] |}).
Proof.
  intros q1 cdb r1 w1 db2 ddb r2 Hok.
  unfold SelectPageModel, bind.
  rewrite (SelectCount_run store q w q1 cdb (buildCondition_eta q w)).
  cbv zeta. fold r1 w1. cbn [Error]. rewrite Hok.
  rewrite (buildCondition_eta q1 w1). reflexivity.
Qed.

(** X10: when its count succeeds, [SelectPageModel] sets [Total] to the
    count, leaves [Current] and [Size] alone, and fills [Records] with what
    the store scanned for a second call, a [Scan] on a statement with the
    normalized offset and limit; the handle it returns is the one of that
    [Scan], with the store's error and affected rows, so a failing data query
    still comes back with [Total] set. *)
Theorem SelectPageModel_total (page : Page R) (q : option Query) w :
  let cdb := snd (fst (buildCondition q w)) in
  let r1 := store (calls w) (CallCount cdb) in
  failure r1 = None ->
  exists page' resultDb q2 w2 ddb,
    SelectPageModel store page q w = ((page', resultDb, q2), w2)
    /\ issued (SelectPageModel store page q) w = [CallCount cdb; CallScan ddb]
    /\ Total page' = count r1
    /\ Current page' = Current page
    /\ Size page' = Size page
    /\ Records page' = scanned (store (calls w ++ [CallCount cdb]) (CallScan ddb))
    /\ Error resultDb = failure (store (calls w ++ [CallCount cdb]) (CallScan ddb))
    /\ Offset (Stmt cdb) = None
    /\ Limit (Stmt cdb) = None
    /\ Offset (Stmt ddb)
       = Some (GoInt.wrap
                 (((if Current page <=? 0 then 1 else Current page) - 1)
                  * (if Size page <=? 0 then 10 else Size page)))
    /\ Limit (Stmt ddb) = Some (if Size page <=? 0 then 10 else Size page).
Proof.
  intros cdb r1 Hok.
  pose proof (SelectPageModel_success page q w Hok) as E. cbv zeta in E.
  fold cdb r1 in E.
  destruct (buildCondition_handle q w) as (q' & cdb' & Eb & _ & _ & Ho & Hl).
  assert (Ec : cdb = cdb') by (subst cdb; rewrite Eb; reflexivity).
  rewrite <- Ec in Ho, Hl.
  match type of E with
  | _ = ((_, {| Stmt := Stmt ?d; Error := _; RowsAffected := _ |}, _), _) =>
      set (ddb := d) in *
  end.
  do 4 eexists. exists ddb.
  split; [exact E |].
  split.
  { unfold issued. rewrite E. cbn [snd calls].
    rewrite <- app_assoc. apply skipn_length_app. }
  cbn [Total Current Size Records set_Records set_Total Error].
  repeat apply conj; try reflexivity; try assumption.
  subst ddb.
  match goal with
  | |- context [paginate_func (paginate ?pg) ?d] =>
      destruct (paginate_func_limit_offset (paginate pg) d) as (H & _)
  end.
  exact H.
Qed.

(** X11: when the count of [SelectPage] succeeds, the statement of the data
    query has the column lists and the ORDER, GROUP and HAVING clauses of the
    statement that was counted; the handle returned is the one of the data
    query, with the store's error and affected rows. *)
Theorem SelectPage_same_clauses (page : Page T) (q : option Query) w :
  let cdb := snd (fst (buildCondition q w)) in
  failure (store (calls w) (CallCount cdb)) = None ->
  exists ddb,
    issued (SelectPage store page q) w = [CallCount cdb; CallFind ddb]
    /\ Distinct (Stmt ddb) = Distinct (Stmt cdb)
    /\ Selects (Stmt ddb) = Selects (Stmt cdb)
    /\ Order (Stmt ddb) = Order (Stmt cdb)
    /\ Group (Stmt ddb) = Group (Stmt cdb)
    /\ Having (Stmt ddb) = Having (Stmt cdb)
    /\ snd (fst (fst (SelectPage store page q w)))
       = fst (outcome store
                {| gormDb := gormDb w; calls := calls w ++ [CallCount cdb] |}
                (CallFind ddb)).
Proof.
  intros cdb Hok.
  pose proof (SelectPage_success page q w Hok) as E. cbv zeta in E.
  fold cdb in E.
  match type of E with
  | _ = ((_, {| Stmt := Stmt ?d; Error := _; RowsAffected := _ |}, _), _) =>
      set (ddb := d) in *
  end.
  exists ddb. split.
  { unfold issued. rewrite E. cbn [snd calls].
    rewrite <- app_assoc. apply skipn_length_app. }
  rewrite E. cbn [fst snd outcome call_handle].
  pose proof (buildCondition_again q w
                {| gormDb := gormDb w; calls := calls w ++ [CallCount cdb] |})
    as H.
  cbv zeta in H. fold cdb in H. destruct H as (H1 & H2 & H3 & H4 & H5).
  subst ddb. cbn. auto 10.
Qed.

(** X12: for a descriptor without bracket groups the second run of
    [buildCondition] changes nothing: when the count succeeds, [SelectPage]
    counts and reads under one and the same condition, and hands the
    descriptor back as it was. *)
Theorem SelectPage_without_brackets (page : Page T) (q : Query) w :
  Builder.Len (AndBracketBuilder q) = 0 ->
  Builder.Len (OrBracketBuilder q) = 0 ->
  Error (snd (fst (fst (SelectCount store (Some q) w)))) = None ->
  let c := if 0 <? Builder.Len (QueryBuilder q)
           then [(QueryBuilder q, QueryArgs q)] else [] in
  map call_condition (issued (SelectPage store page (Some q)) w) = [c; c]
  /\ snd (fst (SelectPage store page (Some q) w)) = Some q.
Proof.
  intros Ha Ho Hok c.
  assert (Hrun : forall w0 : World T,
             exists db, buildCondition (Some q) w0 = ((Some q, db), w0)
                        /\ Where (Stmt db) = c).
  { intros w0.
    destruct (buildCondition_run q w0) as (db & E & _ & _ & _ & _ & Hw).
    unfold bracket_args in E, Hw. rewrite Ha, Ho in E, Hw.
    apply Len_zero in Ha, Ho. rewrite Ha, Ho in E, Hw.
    cbn [Z.ltb Z.compare String.append app] in E, Hw.
    rewrite append_empty_r, app_nil_r, with_condition_same in E.
    rewrite append_empty_r, app_nil_r in Hw.
    exists db. split; [| exact Hw].
    rewrite E. destruct (0 <? Builder.Len (QueryBuilder q)); reflexivity. }
  destruct (Hrun w) as (cdb & E1 & Hw1).
  rewrite (SelectCount_run store _ _ _ _ E1) in Hok. cbn in Hok.
  destruct (Hrun {| gormDb := gormDb w; calls := calls w ++ [CallCount cdb] |})
    as (db2 & E2 & Hw2).
  pose proof (SelectPage_run store page _ _ _ w cdb db2 E1 Hok E2) as E.
  cbv zeta in E. rewrite E. split; [| reflexivity].
  unfold issued. rewrite E. cbn [snd calls].
  rewrite <- app_assoc, skipn_length_app. cbn [map app].
  unfold call_condition. cbn [call_handle].
  match goal with
  | |- context [paginate_func (paginate ?pg) db2] =>
      destruct (paginate_func_limit_offset (paginate pg) db2) as (_ & _ & Hwh)
  end.
  rewrite Hwh, Hw1, Hw2. reflexivity.
Qed.

End Coverage.

(** ** Pagination, continued *)

Lemma paginate_func_stable {A : Type} (env : PaginateEnv A) (db : DB) :
  paginate_func (fst (paginate_func env db)) (snd (paginate_func env db))
  = paginate_func env db.
Proof.
  unfold paginate_func. cbn [fst snd p page pageSize].
  destruct (page env <=? 0) eqn:Hp; destruct (pageSize env <=? 0) eqn:Hs;
    cbn [Z.leb Z.compare]; rewrite ?Hp, ?Hs; reflexivity.
Qed.

(** X13: the function [paginate] returns can be run any number of times on a
    handle: every run after the first leaves the captured variables and the
    statement as the first run left them. *)
Theorem paginate_func_idempotent (A : Type) (pg : Page A) (db : DB) (n : nat) :
  paginate_func_iter (S n) (paginate pg) db = paginate_func (paginate pg) db.
Proof.
  assert (G : forall (env : PaginateEnv A) (d : DB),
             paginate_func_iter (S n) env d = paginate_func env d).
  { induction n as [| n IH]; intros env d.
    - cbn [paginate_func_iter]. destruct (paginate_func env d); reflexivity.
    - change (paginate_func_iter (S (S n)) env d)
        with (let (env', db') := paginate_func env d in
              paginate_func_iter (S n) env' db').
      pose proof (paginate_func_stable env d) as Hs.
      destruct (paginate_func env d) as [env' d'] eqn:E.
      rewrite IH. exact Hs. }
  apply G.
Qed.



(** ** Witnesses on the sample data *)

Lemma SelectPage_merges_twice_witness :
  0 < Builder.Len (QueryBuilder Sample.q)
  /\ Error (snd (fst (fst (SelectCount Sample.store (Some Sample.q) Sample.world))))
     = None
  /\ map call_condition
       (issued (SelectPage Sample.store (NewPage 1 5) (Some Sample.q)) Sample.world)
     = [ [("active = ? AND (age > ?) OR (status = ?)",
           [VBool true; VInt 18; VStr "banned"])];
         [("active = ? AND (age > ?) OR (status = ?) AND (age > ?) OR (status = ?)",
           [VBool true; VInt 18; VStr "banned"; VInt 18; VStr "banned"])] ].
Proof.
  assert (H1 : 0 < Builder.Len (QueryBuilder Sample.q)) by (vm_compute; reflexivity).
  assert (H2 : Error (snd (fst (fst
                 (SelectCount Sample.store (Some Sample.q) Sample.world)))) = None)
    by reflexivity.
  repeat apply conj; try assumption.
  exact (SelectPage_merges_twice Sample.store (NewPage 1 5) Sample.q Sample.world
           H1 H2).
Defined.

Lemma InsertBatchSize_default_witness :
  [1; 2; 3] <> []
  /\ InsertBatchSize Sample.store [1; 2; 3] (-1) Sample.world
     = InsertBatch Sample.store [1; 2; 3] Sample.world
  /\ issued (InsertBatchSize Sample.store [1; 2; 3] (-1)) Sample.world
     = [CallCreateInBatches Sample.blank [1; 2; 3] 1000].
Proof.
  assert (H : [1; 2; 3] <> ([] : list Z)) by discriminate.
  split; [exact H |].
  destruct (InsertBatchSize_default Sample.store [1; 2; 3] (-1) Sample.world H)
    as (_ & _ & E).
  split; [apply E; lia | reflexivity].
Defined.

Lemma select_single_found_witness :
  affected (Sample.finds (calls Sample.world)
              (CallTake (fst (getInstance Sample.world)) [VInt 42])) <> 0
  /\ fst (fst (SelectById 0 Sample.finds (VInt 42) Sample.world)) = Some 42.
Proof.
  assert (H : affected (Sample.finds (calls Sample.world)
                (CallTake (fst (getInstance Sample.world)) [VInt 42])) <> 0)
    by (vm_compute; discriminate).
  split; [exact H |].
  exact (proj1 (proj1 (select_single_found 0 Sample.finds (VInt 42) None
                         Sample.world) H)).
Defined.

Lemma SelectPageModel_total_witness :
  failure (Sample.scans (calls Sample.world)
             (CallCount (snd (fst (buildCondition (Some Sample.plain) Sample.world)))))
  = None
  /\ exists page' resultDb q2 w2,
       SelectPageModel Sample.scans (NewPage 3 10) (Some Sample.plain) Sample.world
       = ((page', resultDb, q2), w2)
       /\ Total page' = 23
       /\ Records page' = ["row"; "row"; "row"].
Proof.
  assert (H : failure (Sample.scans (calls Sample.world)
                (CallCount (snd (fst (buildCondition (Some Sample.plain)
                                        Sample.world))))) = None)
    by reflexivity.
  split; [exact H |].
  destruct (SelectPageModel_total Sample.scans (NewPage 3 10) (Some Sample.plain)
              Sample.world H)
    as (page' & resultDb & q2 & w2 & ddb & E & _).
  exists page', resultDb, q2, w2.
  split; [exact E |].
  vm_compute in E. injection E as <- _ _ _.
  split; reflexivity.
Defined.

Lemma SelectPage_same_clauses_witness :
  failure (Sample.store (calls Sample.world)
             (CallCount (snd (fst (buildCondition (Some Sample.plain) Sample.world)))))
  = None
  /\ exists ddb,
       issued (SelectPage Sample.store (NewPage 3 10) (Some Sample.plain)) Sample.world
       = [CallCount (snd (fst (buildCondition (Some Sample.plain) Sample.world)));
          CallFind ddb]
       /\ Selects (Stmt ddb) = ["name"; "age"]
       /\ Order (Stmt ddb) = ["age DESC"].
Proof.
  assert (H : failure (Sample.store (calls Sample.world)
                (CallCount (snd (fst (buildCondition (Some Sample.plain)
                                        Sample.world))))) = None)
    by reflexivity.
  split; [exact H |].
  destruct (SelectPage_same_clauses Sample.store (NewPage 3 10) (Some Sample.plain)
              Sample.world H)
    as (ddb & Ei & _ & Hs & Ho & _).
  exists ddb. split; [exact Ei |].
  rewrite Hs, Ho. split; reflexivity.
Defined.

Lemma SelectPage_without_brackets_witness :
  Builder.Len (AndBracketBuilder Sample.plain) = 0
  /\ Builder.Len (OrBracketBuilder Sample.plain) = 0
  /\ Error (snd (fst (fst
        (SelectCount Sample.store (Some Sample.plain) Sample.world)))) = None
  /\ map call_condition
       (issued (SelectPage Sample.store (NewPage 3 10) (Some Sample.plain))
          Sample.world)
     = [ [("active = ?", [VBool true])]; [("active = ?", [VBool true])] ]
  /\ snd (fst (SelectPage Sample.store (NewPage 3 10) (Some Sample.plain)
                 Sample.world))
     = Some Sample.plain.
Proof.
  assert (H1 : Builder.Len (AndBracketBuilder Sample.plain) = 0) by reflexivity.
  assert (H2 : Builder.Len (OrBracketBuilder Sample.plain) = 0) by reflexivity.
  assert (H3 : Error (snd (fst (fst
                 (SelectCount Sample.store (Some Sample.plain) Sample.world))))
               = None) by reflexivity.
  repeat apply conj; try assumption;
    apply (SelectPage_without_brackets Sample.store (NewPage 3 10) Sample.plain
             Sample.world H1 H2 H3).
Defined.
